(** * DeclarativeUI development task runner ([tasks.py])

    A shallow embedding of the task runner and the properties of its
    dispatcher, its process executor and its actions.

    The script talks to the outside world in four ways: it prints, it runs
    shell commands, it reads and changes the file system, and it changes the
    working directory of its own process.  All of this is threaded through a
    [World]; the behaviour of the external tools is an oracle, [shell], about
    which nothing is assumed.

    Scope of the model.  A child process always comes back, with an exit
    status and the bytes it wrote to the two pipes; decoding them as text can
    fail, as it does in [subprocess.run(..., text=True)].  The file system
    knows directories and regular files; the library calls on it raise where
    Python raises [FileExistsError], [FileNotFoundError] and
    [NotADirectoryError].  Symbolic links, permissions and a full disk are not
    modelled, and [print] always succeeds. *)

From stdpp Require Import gmap strings list fin_maps pretty.

Local Open Scope Z_scope.

(** ** The operating system as the script sees it *)

(** A path is the list of its components below some fixed root; the relative
    name ["build"] is resolved against the working directory. *)
Abbreviation path := (list string).

Inductive node : Type :=
  | File
  | Dir.

#[global] Instance node_eq_dec : EqDecision node.
Proof. solve_decision. Defined.

Abbreviation FileSystem := (gmap (list string) node).

(** What a child process leaves behind when it exits: its status and the
    bytes it wrote to the two captured pipes. *)
Record Exited : Type := mkExited {
  status : Z;
  out_bytes : string;
  err_bytes : string
}.

(** The codec of [text=True]: the encoding of the locale with strict error
    handling, then the translation of line ends.  [decode b] is the text of
    the bytes [b], and [None] where Python raises [UnicodeDecodeError]. *)
Class Codec : Type := { decode : string → option string }.

(** What [subprocess.run(..., capture_output=True, text=True)] hands back:
    the status and the two streams as text. *)
Record CompletedProcess : Type := mkCompleted {
  returncode : Z;
  stdout : string;
  stderr : string
}.

(** The Python exceptions that the modelled calls can raise. *)
Inductive exn : Type :=
  | CalledProcessError (cmd : string) (rc : Z) (out err : string)
  | FileExistsError (p : path)
  | FileNotFoundError (p : path)
  | NotADirectoryError (p : path)
  | UnicodeDecodeError (data : string)
  | IndexError.

(** What an observer of the process sees, in order: lines written by
    [print], and child processes started (with the directory they ran in). *)
Inductive event : Type :=
  | EPrint (s : string)
  | ERun (cmd : string) (dir : path).

#[global] Instance event_eq_dec : EqDecision event.
Proof. solve_decision. Defined.

Record World (E : Type) : Type := mkWorld {
  fs : FileSystem;
  cwd : path;
  env : E;
  trace : list event
}.
Arguments mkWorld {E} _ _ _ _.
Arguments fs {E} _.
Arguments cwd {E} _.
Arguments env {E} _.
Arguments trace {E} _.

(** [w] after the events [evs], nothing else changed. *)
Definition emit {E : Type} (evs : list event) (w : World E) : World E :=
  mkWorld (fs w) (cwd w) (env w) (trace w ++ evs).

Definition set_cwd {E : Type} (p : path) (w : World E) : World E :=
  mkWorld (fs w) p (env w) (trace w).

Definition set_fs {E : Type} (f : FileSystem) (w : World E) : World E :=
  mkWorld f (cwd w) (env w) (trace w).

(** The lines printed and the commands started, read off a trace. *)
Definition printed (t : list event) : list string :=
  omap (λ e, match e with EPrint s => Some s | ERun _ _ => None end) t.

Definition commands (t : list event) : list string :=
  omap (λ e, match e with ERun c _ => Some c | EPrint _ => None end) t.

(** The events of [w'] that came after those of [w]. *)
Definition since {E : Type} (w w' : World E) : list event :=
  drop (length (trace w)) (trace w').

(** ** Computations: state plus exceptions *)

Inductive outcome (A : Type) : Type :=
  | Ok (a : A)
  | Raise (e : exn).
Arguments Ok {A} _.
Arguments Raise {A} _.

Definition M (E A : Type) : Type := World E → outcome A * World E.

#[global] Instance M_ret {E : Type} : MRet (M E) := λ A a w, (Ok a, w).

#[global] Instance M_bind {E : Type} : MBind (M E) := λ A B k m w,
  match m w with
  | (Ok a, w') => k a w'
  | (Raise e, w') => (Raise e, w')
  end.

(** [try: body except handler]: an exception for which [handler] has a
    clause is handled in the world the body left behind; any other one goes
    on to the caller. *)
Definition try_except {E A : Type} (body : M E A) (handler : exn → option (M E A)) : M E A :=
  λ w, match body w with
       | (Ok a, w') => (Ok a, w')
       | (Raise e, w') =>
           match handler e with
           | Some h => h w'
           | None => (Raise e, w')
           end
       end.

(** [if c: stmt] with no [else]. *)
Definition when {E : Type} (c : bool) (stmt : M E unit) : M E unit :=
  if c then stmt else mret ().

(** Truth value of a Python [str]: the empty string is false. *)
Definition truthy (s : string) : bool :=
  match s with
  | EmptyString => false
  | String _ _ => true
  end.

(** The line feed of ["\n..."]. *)
Definition LF : string := String (Ascii.ascii_of_nat 10) "".

Section Runner.

Context {E : Type} {codec : Codec}.

(** The external tools.  A child process is given its command line, the
    directory it starts in, the file system and the rest of the environment;
    it exits with a status and the bytes of two captured streams, and may
    have changed the file system and the environment.  It cannot change the
    working directory of the script, and with [capture_output] it cannot
    write to the script's standard output. *)
Variable shell : string → path → FileSystem → E → Exited * FileSystem * E.

(** [repr(signal.Signals(n))] where the platform knows signal [n]. *)
Variable Signals : Z → option string.

Abbreviation W := (World E).
Abbreviation Act := (M E).

(** *** Library calls *)

Definition print (s : string) : Act unit :=
  λ w, (Ok (), emit [EPrint s] w).

(** [subprocess.run(cmd, shell=True, check=True, capture_output=True,
    text=True)].  The captured bytes are decoded first, standard output
    before standard error, and bytes that do not decode raise
    [UnicodeDecodeError] whatever the status; then, with [check], a non-zero
    status is turned into [CalledProcessError]. *)
Definition subprocess_run (cmd : string) : Act CompletedProcess :=
  λ w, let '(x, f, e) := shell cmd (cwd w) (fs w) (env w) in
       let w' := mkWorld f (cwd w) e (trace w ++ [ERun cmd (cwd w)]) in
       match decode (out_bytes x) with
       | None => (Raise (UnicodeDecodeError (out_bytes x)), w')
       | Some out =>
           match decode (err_bytes x) with
           | None => (Raise (UnicodeDecodeError (err_bytes x)), w')
           | Some err =>
               if status x =? 0 then (Ok (mkCompleted (status x) out err), w')
               else (Raise (CalledProcessError cmd (status x) out err), w')
           end
       end.

(** [str(e)] for the exceptions above; only that of [CalledProcessError]
    is ever printed. *)
Definition str (e : exn) : string :=
  match e with
  | CalledProcessError cmd rc _ _ =>
      if rc <? 0 then
        match Signals (- rc) with
        | Some sig => "Command '" +:+ cmd +:+ "' died with " +:+ sig +:+ "."
        | None => "Command '" +:+ cmd +:+ "' died with unknown signal "
                    +:+ pretty (- rc) +:+ "."
        end
      else "Command '" +:+ cmd +:+ "' returned non-zero exit status "
             +:+ pretty rc +:+ "."
  | FileExistsError _ => "File exists"
  | FileNotFoundError _ => "No such file or directory"
  | NotADirectoryError _ => "Not a directory"
  | UnicodeDecodeError _ => "codec can't decode bytes"
  | IndexError => "list index out of range"
  end.

Definition resolve (w : W) (name : string) : path := cwd w ++ [name].

(** [Path(name).exists()]: anything at all under that name counts. *)
Definition Path_exists (name : string) : Act bool :=
  λ w, (Ok (bool_decide (is_Some (fs w !! resolve w name))), w).

(** [os.makedirs(name, exist_ok=True)]. *)
Definition makedirs (name : string) : Act unit :=
  λ w, match fs w !! resolve w name with
       | None => (Ok (), set_fs (<[resolve w name := Dir]> (fs w)) w)
       | Some Dir => (Ok (), w)
       | Some File => (Raise (FileExistsError (resolve w name)), w)
       end.

(** [os.chdir(name)]. *)
Definition chdir (name : string) : Act unit :=
  λ w, match fs w !! resolve w name with
       | Some Dir => (Ok (), set_cwd (resolve w name) w)
       | Some File => (Raise (NotADirectoryError (resolve w name)), w)
       | None => (Raise (FileNotFoundError (resolve w name)), w)
       end.

(** [shutil.rmtree(name)]: the directory goes and so does everything
    below it. *)
Definition rmtree (name : string) : Act unit :=
  λ w, match fs w !! resolve w name with
       | Some Dir =>
           (Ok (), set_fs (filter (λ kv : path * node, ¬ resolve w name `prefix_of` kv.1)
                                  (fs w)) w)
       | Some File => (Raise (NotADirectoryError (resolve w name)), w)
       | None => (Raise (FileNotFoundError (resolve w name)), w)
       end.

(** *** [tasks.py] *)

Definition run_command (cmd description : string) : Act bool :=
  print ("🔧 " +:+ description +:+ "...");;
  try_except
    (result ← subprocess_run cmd;
     when (truthy (stdout result)) (print (stdout result));;
     mret true)
    (λ e, match e with
          | CalledProcessError _ _ out err =>
              Some (print ("❌ Error: " +:+ str e);;
                    when (truthy out) (print ("Output: " +:+ out));;
                    when (truthy err) (print ("Error: " +:+ err));;
                    mret false)
          | _ => None
          end).

Definition setup_dev : Act bool :=
  print "🚀 Setting up DeclarativeUI development environment...";;
  ok ← run_command "pip install -r requirements.txt" "Installing Python dependencies";
  if negb ok then mret false else
  ok ← run_command "pre-commit install" "Installing pre-commit hooks";
  if negb ok then mret false else
  print "✅ Development environment setup complete!";;
  print (LF +:+ "📋 Next steps:");;
  print "   1. mkdir build && cd build";;
  print "   2. cmake .. -DCMAKE_BUILD_TYPE=Debug -DBUILD_EXAMPLES=ON -DBUILD_TESTS=ON";;
  print "   3. cmake --build .";;
  print "   4. ctest --output-on-failure";;
  mret true.

Definition format_code : Act bool :=
  run_command "pre-commit run --all-files" "Formatting all code".

Definition lint_code : Act bool :=
  run_command "pre-commit run cppcheck --all-files" "Running C++ linting".

Definition check_code : Act bool :=
  run_command "pre-commit run --all-files" "Running all code quality checks".

Definition build_debug : Act bool :=
  makedirs "build";;
  chdir "build";;
  ok ← run_command
         "cmake .. -DCMAKE_BUILD_TYPE=Debug -DBUILD_EXAMPLES=ON -DBUILD_TESTS=ON"
         "Configuring CMake";
  if negb ok then mret false else
  run_command "cmake --build ." "Building project".

Definition build_release : Act bool :=
  makedirs "build";;
  chdir "build";;
  ok ← run_command
         "cmake .. -DCMAKE_BUILD_TYPE=Release -DBUILD_EXAMPLES=ON -DBUILD_TESTS=ON"
         "Configuring CMake";
  if negb ok then mret false else
  run_command "cmake --build ." "Building project".

Definition run_tests : Act bool :=
  there ← Path_exists "build";
  if negb there then
    print "❌ Build directory not found. Run 'python tasks.py build-debug' first.";;
    mret false
  else
    chdir "build";;
    run_command "ctest --output-on-failure" "Running tests".

Definition clean : Act bool :=
  there ← Path_exists "build";
  when there (rmtree "build";; print "🧹 Cleaned build directory");;
  mret true.

Definition update_hooks : Act bool :=
  run_command "pre-commit autoupdate" "Updating pre-commit hooks".

Definition help_lines : list string :=
  [ "📋 Available tasks:";
    "   setup-dev     - Set up development environment";
    "   format        - Format all code";
    "   lint          - Run C++ linting";
    "   check         - Run all code quality checks";
    "   build-debug   - Build project in debug mode";
    "   build-release - Build project in release mode";
    "   test          - Run all tests";
    "   clean         - Clean build artifacts";
    "   update-hooks  - Update pre-commit hooks";
    "   help          - Show this help" ].

Definition help : Act unit :=
  print "📋 Available tasks:";;
  print "   setup-dev     - Set up development environment";;
  print "   format        - Format all code";;
  print "   lint          - Run C++ linting";;
  print "   check         - Run all code quality checks";;
  print "   build-debug   - Build project in debug mode";;
  print "   build-release - Build project in release mode";;
  print "   test          - Run all tests";;
  print "   clean         - Clean build artifacts";;
  print "   update-hooks  - Update pre-commit hooks";;
  print "   help          - Show this help".

(** What a task hands back to the dispatcher: a [bool], or [None] from
    [help], which has no [return]. *)
Definition returning (a : Act bool) : Act (option bool) := b ← a; mret (Some b).
Definition returning_None (a : Act unit) : Act (option bool) := a;; mret None.

(** The [tasks] dictionary of [main], entries in the order of the literal. *)
Definition tasks : gmap string (Act (option bool)) :=
  <["help" := returning_None help]> (
  <["update-hooks" := returning update_hooks]> (
  <["clean" := returning clean]> (
  <["test" := returning run_tests]> (
  <["build-release" := returning build_release]> (
  <["build-debug" := returning build_debug]> (
  <["check" := returning check_code]> (
  <["lint" := returning lint_code]> (
  <["format" := returning format_code]> (
  <["setup-dev" := returning setup_dev]> ∅))))))))).

Definition task_names : list string :=
  [ "setup-dev"; "format"; "lint"; "check"; "build-debug"; "build-release";
    "test"; "clean"; "update-hooks"; "help" ].

(** [sys.argv[i]]. *)
Definition argv_get (argv : list string) (i : nat) : Act string :=
  λ w, match argv !! i with
       | Some a => (Ok a, w)
       | None => (Raise IndexError, w)
       end.

Definition main (argv : list string) : Act unit :=
  if negb (length argv =? 2)%nat then help else
  task ← argv_get argv 1;
  match tasks !! task with
  | None => print ("❌ Unknown task: " +:+ task);; help
  | Some action => action;; mret ()
  end.

(** The script's last two lines call [main()] and fall off the end of the
    module: the interpreter exits with 0, or with 1 after an exception
    nobody caught. *)
Definition exit_status (argv : list string) (w : W) : Z :=
  match main argv w with
  | (Ok _, _) => 0
  | (Raise _, _) => 1
  end.

End Runner.

Arguments print {E} _ _.
Arguments Path_exists {E} _ _.
Arguments makedirs {E} _ _.
Arguments chdir {E} _ _.
Arguments rmtree {E} _ _.
Arguments resolve {E} _ _.
Arguments help {E} _.

(** A computation that leaves the working directory where it was, on every
    way out. *)
Definition keeps_cwd {E A : Type} (m : M E A) : Prop :=
  ∀ w, cwd (m w).2 = cwd w.



(** The child processes of a trace, each with the directory it ran in. *)
Definition started (t : list event) : list (string * path) :=
  omap (λ e, match e with ERun c d => Some (c, d) | EPrint _ => None end) t.

(** The child processes that [m] starts when run in [w]. *)
Definition spawned {E A : Type} (m : M E A) (w : World E) : list (string * path) :=
  started (since w (m w).2).

(** [m] run in [w] only adds to the trace, and the processes among what it
    adds are [l]. *)
Definition spawns {E A : Type} (m : M E A) (w : World E) (l : list (string * path)) : Prop :=
  ∃ evs, trace (m w).2 = trace w ++ evs ∧ started evs = l.



(** The task a line of the help listing is about: its first word. *)
Definition listed_name (line : string) : option string := head (String.words line).

(** ** Concrete environments

    Small operating systems on which the script can be run inside Rocq. *)

(** Every command named in [failing] exits with status 1 and writes to both
    streams; any other command exits with 0 and says ["OK"].  The file system
    is left as it was. *)
Definition scripted (failing : list string)
  : string → path → FileSystem → unit → Exited * FileSystem * unit :=
  λ cmd _ f e,
    if bool_decide (cmd ∈ failing) then (mkExited 1 "boom" "bad", f, e)
    else (mkExited 0 "OK" "", f, e).

(** A tool that succeeds without a word. *)
Definition silent
  : string → path → FileSystem → unit → Exited * FileSystem * unit :=
  λ _ _ f e, (mkExited 0 "" "", f, e).

(** The one byte 0xFF, which is text in no ASCII-compatible encoding. *)
Definition xFF : string := String (Ascii.ascii_of_nat 255) "".

(** A tool that exits with [st] after writing the byte 0xFF to its standard
    output. *)
Definition garbling (st : Z)
  : string → path → FileSystem → unit → Exited * FileSystem * unit :=
  λ _ _ f e, (mkExited st xFF "", f, e).

(** The codec of an ASCII locale: bytes from 0x80 on do not decode; the line
    ends ["\r\n"] and ["\r"] become ["\n"]. *)
Fixpoint ascii_text (b : string) : option string :=
  match b with
  | EmptyString => Some EmptyString
  | String c rest =>
      if (Ascii.nat_of_ascii c <? 128)%nat
      then String c <$> ascii_text rest
      else None
  end.

Definition starts_with_LF (s : string) : bool :=
  match s with
  | String c _ => Ascii.eqb c (Ascii.ascii_of_nat 10)
  | EmptyString => false
  end.

Fixpoint universal_newlines (s : string) : string :=
  match s with
  | EmptyString => EmptyString
  | String c rest =>
      if Ascii.eqb c (Ascii.ascii_of_nat 13) then
        if starts_with_LF rest then universal_newlines rest
        else String (Ascii.ascii_of_nat 10) (universal_newlines rest)
      else String c (universal_newlines rest)
  end.

Definition ascii_codec : Codec :=
  {| decode b := universal_newlines <$> ascii_text b |}.

Definition posix_signals (n : Z) : option string :=
  if n =? 9 then Some "<Signals.SIGKILL: 9>"
  else if n =? 15 then Some "<Signals.SIGTERM: 15>"
  else None.

(** A fresh checkout, a checkout that has been built, and one where a
    regular file is in the way of the build directory. *)
Definition fresh : World unit := mkWorld ∅ [] () [].

Definition built : World unit :=
  mkWorld (<[["build"; "CMakeCache.txt"] := File]> (<[["build"] := Dir]> (<[["src"] := Dir]> ∅)))
          [] () [].

Definition blocked : World unit := mkWorld (<[["build"] := File]> ∅) [] () [].

(** ** Reasoning about computations *)

Lemma bind_Ok {E A B : Type} (m : M E A) (k : A → M E B) w a w' :
  m w = (Ok a, w') → (m ≫= k) w = k a w'.
Proof. intros Hm. unfold mbind, M_bind. by rewrite Hm. Qed.

Lemma bind_Raise {E A B : Type} (m : M E A) (k : A → M E B) w e w' :
  m w = (Raise e, w') → (m ≫= k) w = (Raise e, w').
Proof. intros Hm. unfold mbind, M_bind. by rewrite Hm. Qed.

Lemma bind_print {E B : Type} (s : string) (k : unit → M E B) (w : World E) :
  (print s ≫= k) w = k () (emit [EPrint s] w).
Proof. done. Qed.

Lemma bind_Path_exists {E B : Type} (name : string) (k : bool → M E B) (w : World E) :
  (Path_exists name ≫= k) w
  = k (bool_decide (is_Some (fs w !! (cwd w ++ [name])))) w.
Proof. done. Qed.

Lemma emit_emit {E : Type} (a b : list event) (w : World E) :
  emit b (emit a w) = emit (a ++ b) w.
Proof. unfold emit. simpl. by rewrite app_assoc. Qed.

Lemma since_emit {E : Type} (evs : list event) (w : World E) :
  since w (emit evs w) = evs.
Proof. unfold since, emit. simpl. apply drop_app_length. Qed.

(** Runs a sequence of [print]s off the front of a computation. *)
Ltac step_prints :=
  repeat (rewrite bind_print; cbv beta); unfold print; rewrite ?emit_emit.

(** ** The process executor *)

(** The test [if s:] on a string is the test for the empty string. *)
Lemma truthy_nonempty {A : Type} (s : string) (x y : A) :
  (if truthy s then x else y) = (if decide (s = "") then y else x).
Proof. by destruct s. Qed.

(** Unfolds the monad down to matches on worlds. *)
Ltac run_monad :=
  unfold mbind, M_bind, mret, M_ret, try_except, when, print, emit; simpl.

Section Executor.

Context {E : Type} {codec : Codec}.
Variable shell : string → path → FileSystem → E → Exited * FileSystem * E.
Variable Signals : Z → option string.

Abbreviation progress description := (EPrint ("🔧 " +:+ description +:+ "...")).

(** What [run_command] does, all cases.  The child's changes to the file
    system and the environment are kept, the working directory is the one it
    was called in, and the trace grows by the progress line and the child
    process.  When both streams decode, the boolean says whether the status
    was zero and the report follows on the trace; when one does not,
    [UnicodeDecodeError] leaves [run_command] and nothing more is printed. *)
Lemma run_command_unfold cmd description (w : World E) :
  run_command shell Signals cmd description w =
    let '(x, f, e) := shell cmd (cwd w) (fs w) (env w) in
    let after evs :=
      mkWorld f (cwd w) e (trace w ++ progress description :: ERun cmd (cwd w) :: evs) in
    match decode (out_bytes x), decode (err_bytes x) with
    | Some out, Some err =>
        (Ok (status x =? 0),
         after (if status x =? 0
                then (if truthy out then [EPrint out] else [])
                else EPrint ("❌ Error: " +:+ str Signals
                               (CalledProcessError cmd (status x) out err))
                     :: (if truthy out then [EPrint ("Output: " +:+ out)] else [])
                     ++ (if truthy err then [EPrint ("Error: " +:+ err)] else [])))
    | Some _, None => (Raise (UnicodeDecodeError (err_bytes x)), after [])
    | None, _ => (Raise (UnicodeDecodeError (out_bytes x)), after [])
    end.
Proof.
  unfold run_command, subprocess_run. run_monad.
  destruct (shell cmd (cwd w) (fs w) (env w)) as [[x f] e]. simpl.
  destruct (decode (out_bytes x)) as [out|]; simpl; [| by rewrite <- ?app_assoc].
  destruct (decode (err_bytes x)) as [err|]; simpl; [| by rewrite <- ?app_assoc].
  destruct (status x =? 0); simpl.
  - destruct (truthy out); simpl; by rewrite <- ?app_assoc.
  - destruct (truthy out), (truthy err); simpl; by rewrite <- ?app_assoc.
Qed.

(** Every way out of [run_command] is a boolean or [UnicodeDecodeError]. *)
Lemma run_command_outcome cmd description (w : World E) :
  (∃ b w', run_command shell Signals cmd description w = (Ok b, w'))
  ∨ (∃ data w', run_command shell Signals cmd description w
                = (Raise (UnicodeDecodeError data), w')).
Proof.
  rewrite run_command_unfold.
  destruct (shell cmd (cwd w) (fs w) (env w)) as [[x f] e].
  destruct (decode (out_bytes x)), (decode (err_bytes x)); eauto.
Qed.


Lemma run_command_cwd cmd description (w : World E) :
  cwd (run_command shell Signals cmd description w).2 = cwd w.
Proof.
  rewrite run_command_unfold.
  destruct (shell cmd (cwd w) (fs w) (env w)) as [[x f] e].
  by destruct (decode (out_bytes x)), (decode (err_bytes x)).
Qed.

(** C2, as amended: a command that exits with status zero and whose output
    decodes as text makes [run_command] print the progress line with the
    description in it, then start the command, then print the captured
    standard output once if there is any and nothing if there is none, and
    return [True]; a captured ["OK"] is among the printed lines exactly
    once. *)
Theorem run_command_success cmd description (w : World E) x f e out err :
  shell cmd (cwd w) (fs w) (env w) = (x, f, e) →
  decode (out_bytes x) = Some out →
  decode (err_bytes x) = Some err →
  status x = 0 →
  let w' := mkWorld f (cwd w) e
              (trace w ++ progress description :: ERun cmd (cwd w) ::
                 (if decide (out = "") then [] else [EPrint out])) in
  run_command shell Signals cmd description w = (Ok true, w')
  ∧ (out = "" → printed (since w w') = ["🔧 " +:+ description +:+ "..."])
  ∧ (out = "OK" →
       printed (since w w') = ["🔧 " +:+ description +:+ "..."; "OK"]
       ∧ length (filter (λ s, s = "OK") (printed (since w w'))) = 1%nat).
Proof.
  intros Hsh Hout Herr Hrc w'.
  assert (Hsince : since w w' = progress description :: ERun cmd (cwd w) ::
            (if decide (out = "") then [] else [EPrint out])).
  { unfold since, w'; simpl. by rewrite drop_app_length. }
  split; [|split].
  - rewrite run_command_unfold, Hsh, Hout, Herr, Hrc. simpl.
    by rewrite truthy_nonempty.
  - intros Hempty. rewrite Hsince, Hempty. done.
  - intros Hok. rewrite Hsince, Hok. split; [done|].
    cbn [printed omap list_omap].
    rewrite filter_cons. destruct (decide (_ +:+ _ = "OK")) as [Heq|_]; [by simpl in Heq | done].
Qed.

(** C1, as amended: a command that exits with a non-zero status and whose
    output decodes as text makes [run_command] catch the error, print the
    error summary, print the captured standard output only if it is not
    empty, print the captured standard error only if it is not empty, and
    return [False]; the outcome is a returned value, not a raised
    exception. *)
Theorem run_command_failure cmd description (w : World E) x f e out err :
  shell cmd (cwd w) (fs w) (env w) = (x, f, e) →
  decode (out_bytes x) = Some out →
  decode (err_bytes x) = Some err →
  status x ≠ 0 →
  run_command shell Signals cmd description w =
    (Ok false,
     mkWorld f (cwd w) e
       (trace w ++
          [ progress description; ERun cmd (cwd w);
            EPrint ("❌ Error: " +:+ str Signals
                      (CalledProcessError cmd (status x) out err)) ]
          ++ (if decide (out = "") then [] else [EPrint ("Output: " +:+ out)])
          ++ (if decide (err = "") then [] else [EPrint ("Error: " +:+ err)])))
  ∧ (∀ exc, (run_command shell Signals cmd description w).1 ≠ Raise exc).
Proof.
  intros Hsh Hout Herr Hrc.
  rewrite run_command_unfold, Hsh, Hout, Herr.
  apply Z.eqb_neq in Hrc. rewrite Hrc. split; [|done].
  by rewrite !truthy_nonempty.
Qed.

End Executor.

(** ** The dispatcher *)

Section Dispatcher.

Context {E : Type} {codec : Codec}.
Variable shell : string → path → FileSystem → E → Exited * FileSystem * E.
Variable Signals : Z → option string.

Lemma help_unfold (w : World E) :
  help w = (Ok (), emit (EPrint <$> help_lines) w).
Proof. unfold help. step_prints. done. Qed.

(** The registry holds the ten names of the help listing and no other. *)
Lemma tasks_unknown task :
  task ∉ task_names → tasks shell Signals !! task = None.
Proof.
  intros Hnot. unfold tasks.
  repeat (rewrite lookup_insert_ne;
          [| intros <-; apply Hnot; unfold task_names; set_solver]).
  apply lookup_empty.
Qed.

Lemma tasks_entries :
  let t := tasks shell Signals in
  t !! "setup-dev" = Some (returning (setup_dev shell Signals))
  ∧ t !! "format" = Some (returning (format_code shell Signals))
  ∧ t !! "lint" = Some (returning (lint_code shell Signals))
  ∧ t !! "check" = Some (returning (check_code shell Signals))
  ∧ t !! "build-debug" = Some (returning (build_debug shell Signals))
  ∧ t !! "build-release" = Some (returning (build_release shell Signals))
  ∧ t !! "test" = Some (returning (run_tests shell Signals))
  ∧ t !! "clean" = Some (returning clean)
  ∧ t !! "update-hooks" = Some (returning (update_hooks shell Signals))
  ∧ t !! "help" = Some (returning_None help).
Proof.
  unfold tasks.
  repeat split; repeat (rewrite lookup_insert_ne by discriminate);
    apply lookup_insert_eq.
Qed.

Lemma tasks_known task :
  task ∈ task_names → is_Some (tasks shell Signals !! task).
Proof.
  unfold task_names. intros Hin.
  repeat (apply elem_of_cons in Hin as [-> | Hin];
          [unfold tasks; repeat (rewrite lookup_insert_ne by discriminate);
           rewrite lookup_insert_eq; eauto |]).
  by apply elem_of_nil in Hin.
Qed.


(** C4: for a registered task name [main] runs the action the registry
    holds for it and throws its result away: whenever the action returns,
    with [True], [False] or [None], [main] returns normally in the world
    the action left, and the exit status is 0. *)
Theorem main_discards_result prog name action (w : World E) :
  tasks shell Signals !! name = Some action →
  main shell Signals [prog; name] w = (action;; mret ()) w
  ∧ ∀ result w', action w = (Ok result, w') →
      main shell Signals [prog; name] w = (Ok (), w')
      ∧ exit_status shell Signals [prog; name] w = 0.
Proof.
  intros Hreg.
  assert (Hmain : main shell Signals [prog; name] w = (action;; mret ()) w).
  { unfold main, argv_get. simpl. unfold mbind at 1, M_bind at 1. by rewrite Hreg. }
  split; [done|].
  intros result w' Hact. unfold exit_status. rewrite Hmain.
  by rewrite (bind_Ok _ _ _ _ _ Hact).
Qed.

End Dispatcher.

(** ** The actions *)

Lemma keeps_cwd_ret {E A : Type} (a : A) : keeps_cwd (mret a : M E A).
Proof. done. Qed.

Lemma keeps_cwd_bind {E A B : Type} (m : M E A) (k : A → M E B) :
  keeps_cwd m → (∀ a, keeps_cwd (k a)) → keeps_cwd (m ≫= k).
Proof.
  intros Hm Hk w. specialize (Hm w). unfold mbind, M_bind.
  destruct (m w) as [[a | e] w1]; simpl in *; [|done].
  by rewrite Hk.
Qed.

Lemma keeps_cwd_when {E : Type} (c : bool) (m : M E unit) :
  keeps_cwd m → keeps_cwd (when c m).
Proof. by destruct c. Qed.

Lemma keeps_cwd_print {E : Type} (s : string) : keeps_cwd (print (E:=E) s).
Proof. done. Qed.

Lemma keeps_cwd_Path_exists {E : Type} (name : string) :
  keeps_cwd (Path_exists (E:=E) name).
Proof. done. Qed.

Lemma keeps_cwd_rmtree {E : Type} (name : string) : keeps_cwd (rmtree (E:=E) name).
Proof. intros w. unfold rmtree. by destruct (fs w !! resolve w name) as [[|]|]. Qed.

Create HintDb cwd discriminated.
#[export] Hint Resolve keeps_cwd_ret keeps_cwd_bind keeps_cwd_when keeps_cwd_print
  keeps_cwd_Path_exists keeps_cwd_rmtree : cwd.

Section Actions.

Context {E : Type} {codec : Codec}.
Variable shell : string → path → FileSystem → E → Exited * FileSystem * E.
Variable Signals : Z → option string.

Lemma keeps_cwd_run_command cmd description :
  keeps_cwd (run_command shell Signals cmd description).
Proof. intros w. apply run_command_cwd. Qed.

(** The trace after [run_command] is the trace before it, then events of
    which exactly one is a command: the one asked for. *)
Lemma run_command_trace cmd description (w : World E) :
  ∃ evs, trace (run_command shell Signals cmd description w).2 = trace w ++ evs
         ∧ commands evs = [cmd].
Proof.
  rewrite run_command_unfold.
  destruct (shell cmd (cwd w) (fs w) (env w)) as [[x f] e].
  destruct (decode (out_bytes x)) as [out|]; [| by eexists].
  destruct (decode (err_bytes x)) as [err|]; [| by eexists].
  simpl. eexists. split; [done|].
  destruct (status x =? 0), (truthy out), (truthy err); done.
Qed.

Lemma since_app (w w' : World E) evs :
  trace w' = trace w ++ evs → since w w' = evs.
Proof. intros Ht. unfold since. rewrite Ht. apply drop_app_length. Qed.

Lemma commands_app a b : commands (a ++ b) = commands a ++ commands b.
Proof. apply omap_app. Qed.

(** C5: [setup_dev] installs the dependencies, then the hooks, and stops at
    the first step that fails: when the first step returns [False] the
    install of the hooks is never started and [setup_dev] returns [False];
    when the second returns [False] so does [setup_dev]; when both return
    [True] it prints the closing lines and returns [True].  An exception
    out of a step is an exception out of [setup_dev], and nothing is started
    after it. *)
Theorem setup_dev_short_circuit (w : World E) :
  let pip := "pip install -r requirements.txt" in
  let hook := "pre-commit install" in
  let w0 := emit [EPrint "🚀 Setting up DeclarativeUI development environment..."] w in
  match run_command shell Signals pip "Installing Python dependencies" w0 with
  | (Ok ok1, w1) =>
      if ok1 then
        commands (since w (setup_dev shell Signals w).2) = [pip; hook]
        ∧ match run_command shell Signals hook "Installing pre-commit hooks" w1 with
          | (Ok ok2, w2) =>
              if ok2 then
                setup_dev shell Signals w =
                  (Ok true,
                   emit [ EPrint "✅ Development environment setup complete!";
                          EPrint (LF +:+ "📋 Next steps:");
                          EPrint "   1. mkdir build && cd build";
                          EPrint "   2. cmake .. -DCMAKE_BUILD_TYPE=Debug -DBUILD_EXAMPLES=ON -DBUILD_TESTS=ON";
                          EPrint "   3. cmake --build .";
                          EPrint "   4. ctest --output-on-failure" ] w2)
              else setup_dev shell Signals w = (Ok false, w2)
          | (Raise exc, w2) => setup_dev shell Signals w = (Raise exc, w2)
          end
      else
        setup_dev shell Signals w = (Ok false, w1)
        ∧ commands (since w w1) = [pip]
  | (Raise exc, w1) =>
      setup_dev shell Signals w = (Raise exc, w1)
      ∧ commands (since w w1) = [pip]
  end.
Proof.
  intros pip hook w0. unfold setup_dev. rewrite bind_print. cbv beta. fold w0.
  destruct (run_command_trace pip "Installing Python dependencies" w0)
    as (evs1 & Ht1 & Hc1).
  destruct (run_command shell Signals pip "Installing Python dependencies" w0)
    as [[ok1 | exc1] w1] eqn:H1; simpl in Ht1.
  - rewrite (bind_Ok _ _ _ _ _ H1).
    destruct ok1; simpl.
    + destruct (run_command_trace hook "Installing pre-commit hooks" w1)
        as (evs2 & Ht2 & Hc2).
      destruct (run_command shell Signals hook "Installing pre-commit hooks" w1)
        as [[ok2 | exc2] w2] eqn:H2; simpl in Ht2.
      * rewrite (bind_Ok _ _ _ _ _ H2).
        destruct ok2; simpl.
        -- step_prints. split; [|done].
           erewrite since_app.
           2:{ simpl. rewrite Ht2, Ht1. unfold w0. simpl. rewrite <- !app_assoc. done. }
           rewrite !commands_app, Hc1, Hc2. done.
        -- split; [|done].
           erewrite since_app.
           2:{ rewrite Ht2, Ht1. unfold w0. simpl. rewrite <- !app_assoc. done. }
           rewrite !commands_app, Hc1, Hc2. done.
      * rewrite (bind_Raise _ _ _ _ _ H2). split; [|done].
        erewrite since_app.
        2:{ simpl. rewrite Ht2, Ht1. unfold w0. simpl. rewrite <- !app_assoc. done. }
        rewrite !commands_app, Hc1, Hc2. done.
    + split; [done|].
      erewrite since_app.
      2:{ rewrite Ht1. unfold w0. simpl. rewrite <- !app_assoc. done. }
      rewrite !commands_app, Hc1. done.
  - rewrite (bind_Raise _ _ _ _ _ H1). split; [done|].
    erewrite since_app.
    2:{ rewrite Ht1. unfold w0. simpl. rewrite <- !app_assoc. done. }
    rewrite !commands_app, Hc1. done.
Qed.

(** Entering the build directory: whether it has to be made or is there
    already, [makedirs] then [chdir] end in the directory. *)
Lemma enter_build {B : Type} (k : M E B) (w : World E) :
  fs w !! (cwd w ++ ["build"]) = None ∨ fs w !! (cwd w ++ ["build"]) = Some Dir →
  (makedirs "build";; chdir "build";; k) w
  = k (mkWorld (<[cwd w ++ ["build"] := Dir]> (fs w)) (cwd w ++ ["build"])
               (env w) (trace w)).
Proof.
  intros Hfile. unfold mbind, M_bind, makedirs, chdir, resolve.
  destruct (fs w !! (cwd w ++ ["build"])) as [[|]|] eqn:Hdir; [by destruct Hfile| |].
  - rewrite Hdir. unfold set_cwd. by rewrite insert_id.
  - unfold set_fs at 1 2; simpl. rewrite lookup_insert_eq. done.
Qed.

(** C6, as amended: where nothing is called [build] or [build] is a
    directory, [build_debug] and [build_release] make sure the build
    directory is there, go into it and configure; when configuring returns
    [False] the build is not started and the action returns [False], when it
    returns [True] the action is the build step, and an exception out of
    configuring leaves the action with the build not started.  The two differ
    in the build type handed to CMake and in nothing else. *)
Theorem build_steps (release : bool) (w : World E) :
  let build := if release then build_release shell Signals
               else build_debug shell Signals in
  let configure := "cmake .. -DCMAKE_BUILD_TYPE="
                     +:+ (if release then "Release" else "Debug")
                     +:+ " -DBUILD_EXAMPLES=ON -DBUILD_TESTS=ON" in
  let dir := cwd w ++ ["build"] in
  let w0 := mkWorld (<[dir := Dir]> (fs w)) dir (env w) (trace w) in
  fs w !! dir = None ∨ fs w !! dir = Some Dir →
  fs w0 !! dir = Some Dir
  ∧ (fs w !! dir = Some Dir → fs w0 = fs w)
  ∧ match run_command shell Signals configure "Configuring CMake" w0 with
    | (Ok ok1, w1) =>
        if ok1 then
          build w = run_command shell Signals "cmake --build ." "Building project" w1
        else
          build w = (Ok false, w1) ∧ commands (since w w1) = [configure]
    | (Raise exc, w1) =>
        build w = (Raise exc, w1) ∧ commands (since w w1) = [configure]
    end.
Proof.
  intros build configure dir w0 Hfile.
  split; [apply lookup_insert_eq|]. split; [apply insert_id|].
  assert (Hbuild : build w =
            (ok ← run_command shell Signals configure "Configuring CMake";
             if negb ok then mret false
             else run_command shell Signals "cmake --build ." "Building project") w0).
  { unfold build, configure. destruct release; apply (enter_build _ _ Hfile). }
  destruct (run_command_trace configure "Configuring CMake" w0)
    as (evs1 & Ht1 & Hc1).
  destruct (run_command shell Signals configure "Configuring CMake" w0)
    as [[ok1 | exc1] w1] eqn:H1; simpl in Ht1.
  - rewrite Hbuild, (bind_Ok _ _ _ _ _ H1).
    destruct ok1; simpl; [done|]. split; [done|].
    by rewrite (since_app w w1 evs1).
  - rewrite Hbuild, (bind_Raise _ _ _ _ _ H1). split; [done|].
    by rewrite (since_app w w1 evs1).
Qed.

Lemma run_tests_in_build (w : World E) :
  fs w !! (cwd w ++ ["build"]) = Some Dir →
  run_tests shell Signals w
  = run_command shell Signals "ctest --output-on-failure" "Running tests"
      (set_cwd (cwd w ++ ["build"]) w).
Proof.
  intros Hdir. unfold run_tests. rewrite bind_Path_exists, Hdir.
  rewrite bool_decide_true by eauto. simpl.
  assert (Hcd : chdir "build" w = (Ok (), set_cwd (cwd w ++ ["build"]) w)).
  { unfold chdir, resolve. by rewrite Hdir. }
  by rewrite (bind_Ok _ _ _ _ _ Hcd).
Qed.

(** C7, as amended: where nothing is called [build], [run_tests] prints the
    guidance line and returns [False]; the working directory stays and no
    command is run.  Where [build] is a directory, it goes into it and
    returns what running the test runner with [--output-on-failure]
    returns. *)
Theorem run_tests_needs_build (w : World E) :
  let dir := cwd w ++ ["build"] in
  (fs w !! dir = None →
     run_tests shell Signals w
     = (Ok false,
        emit [EPrint "❌ Build directory not found. Run 'python tasks.py build-debug' first."] w)
     ∧ cwd (run_tests shell Signals w).2 = cwd w
     ∧ commands (since w (run_tests shell Signals w).2) = [])
  ∧ (fs w !! dir = Some Dir →
     run_tests shell Signals w
     = run_command shell Signals "ctest --output-on-failure" "Running tests"
         (set_cwd dir w)).
Proof.
  intros dir. split; intros Hdir; [|by apply run_tests_in_build].
  unfold run_tests. rewrite bind_Path_exists. fold dir. rewrite Hdir.
  rewrite bool_decide_false by (by intros [? ?]). simpl.
  rewrite bind_print. split; [done|]. split; [done|].
  simpl. by rewrite since_emit.
Qed.

(** [shutil.rmtree] on a directory: the directory and all below it are
    gone, the rest of the file system is as before. *)
Lemma rmtree_lookup (dir p : path) (f : FileSystem) :
  filter (λ kv : path * node, ¬ dir `prefix_of` kv.1) f !! p
  = if decide (dir `prefix_of` p) then None else f !! p.
Proof.
  case_decide as Hpre.
  - apply map_lookup_filter_None. right. intros x _ Hnot. by apply Hnot.
  - destruct (f !! p) as [x|] eqn:Hp.
    + by apply map_lookup_filter_Some.
    + apply map_lookup_filter_None. by left.
Qed.


(** Goes through a computation made of binds, tests on booleans, prints
    and calls of [run_command]. *)
Ltac frame_cwd :=
  repeat first
    [ apply keeps_cwd_run_command
    | match goal with
      | |- keeps_cwd (if negb ?b then _ else _) => destruct b; simpl
      end
    | apply keeps_cwd_bind; [| intros ?]
    | solve [auto with cwd] ].

Lemma keeps_cwd_setup_dev : keeps_cwd (setup_dev shell Signals).
Proof. unfold setup_dev. frame_cwd. Qed.

Lemma keeps_cwd_help : keeps_cwd (help (E:=E)).
Proof. unfold help. frame_cwd. Qed.

Lemma keeps_cwd_clean : keeps_cwd (clean (E:=E)).
Proof. unfold clean. frame_cwd. Qed.

(** C9, as amended: [build_debug] and [build_release], where nothing is
    called [build] or [build] is a directory, and [run_tests], where [build]
    is a directory, end with the build directory as working directory
    however they end; [setup_dev], [format_code], [lint_code], [check_code],
    [update_hooks], [help] and [clean] end in the directory they started
    in. *)
Theorem working_directory (w : World E) :
  let dir := cwd w ++ ["build"] in
  (fs w !! dir = None ∨ fs w !! dir = Some Dir →
     cwd (build_debug shell Signals w).2 = dir
     ∧ cwd (build_release shell Signals w).2 = dir)
  ∧ (fs w !! dir = Some Dir → cwd (run_tests shell Signals w).2 = dir)
  ∧ cwd (setup_dev shell Signals w).2 = cwd w
  ∧ cwd (format_code shell Signals w).2 = cwd w
  ∧ cwd (lint_code shell Signals w).2 = cwd w
  ∧ cwd (check_code shell Signals w).2 = cwd w
  ∧ cwd (update_hooks shell Signals w).2 = cwd w
  ∧ cwd (help w).2 = cwd w
  ∧ cwd (clean w).2 = cwd w.
Proof.
  intros dir. split; [|split].
  - intros Hfile. unfold build_debug, build_release.
    rewrite !(enter_build _ _ Hfile). fold dir.
    split.
    + match goal with |- cwd (?m ?w0).2 = _ => assert (Hk : keeps_cwd m) end.
      { frame_cwd. }
      by rewrite Hk.
    + match goal with |- cwd (?m ?w0).2 = _ => assert (Hk : keeps_cwd m) end.
      { frame_cwd. }
      by rewrite Hk.
  - intros Hdir.
    rewrite (run_tests_in_build _ Hdir). by rewrite run_command_cwd.
  - repeat split;
      first [ apply keeps_cwd_setup_dev | apply keeps_cwd_help
            | apply keeps_cwd_clean | apply run_command_cwd ].
Qed.

(** C10: [format_code] and [check_code] are the same call of
    [run_command] but for the description: on every world they run the
    same single command, return the same boolean and leave the same file
    system, environment and working directory, and their traces differ in
    the progress line only. *)
Theorem format_code_is_check_code (w : World E) :
  format_code shell Signals
  = run_command shell Signals "pre-commit run --all-files" "Formatting all code"
  ∧ check_code shell Signals
    = run_command shell Signals "pre-commit run --all-files"
        "Running all code quality checks"
  ∧ (format_code shell Signals w).1 = (check_code shell Signals w).1
  ∧ fs (format_code shell Signals w).2 = fs (check_code shell Signals w).2
  ∧ cwd (format_code shell Signals w).2 = cwd (check_code shell Signals w).2
  ∧ env (format_code shell Signals w).2 = env (check_code shell Signals w).2
  ∧ ∃ rest,
      trace (format_code shell Signals w).2
      = trace w ++ EPrint "🔧 Formatting all code..." :: rest
      ∧ trace (check_code shell Signals w).2
        = trace w ++ EPrint "🔧 Running all code quality checks..." :: rest
      ∧ commands rest = ["pre-commit run --all-files"].
Proof.
  split; [done|]. split; [done|].
  unfold format_code, check_code. rewrite !run_command_unfold.
  destruct (shell "pre-commit run --all-files" (cwd w) (fs w) (env w)) as [[x f] e].
  destruct (decode (out_bytes x)) as [out|];
    [| simpl; repeat (split; [done|]); by eexists].
  destruct (decode (err_bytes x)) as [err|];
    [| simpl; repeat (split; [done|]); by eexists].
  simpl. repeat (split; [done|]).
  eexists. split; [done|]. split; [done|].
  destruct (status x =? 0), (truthy out), (truthy err); done.
Qed.

End Actions.

(** ** Ways out of the actions *)





Section Outcomes.

Context {E : Type} {codec : Codec}.
Variable shell : string → path → FileSystem → E → Exited * FileSystem * E.
Variable Signals : Z → option string.







(** What the four actions that look at the build directory do when a
    regular file has its name. *)
Lemma build_debug_file (w : World E) :
  fs w !! (cwd w ++ ["build"]) = Some File →
  build_debug shell Signals w = (Raise (FileExistsError (cwd w ++ ["build"])), w).
Proof.
  intros Hfile. unfold build_debug, mbind, M_bind, makedirs, resolve.
  by rewrite Hfile.
Qed.

Lemma build_release_file (w : World E) :
  fs w !! (cwd w ++ ["build"]) = Some File →
  build_release shell Signals w = (Raise (FileExistsError (cwd w ++ ["build"])), w).
Proof.
  intros Hfile. unfold build_release, mbind, M_bind, makedirs, resolve.
  by rewrite Hfile.
Qed.

Lemma run_tests_file (w : World E) :
  fs w !! (cwd w ++ ["build"]) = Some File →
  run_tests shell Signals w = (Raise (NotADirectoryError (cwd w ++ ["build"])), w).
Proof.
  intros Hfile. unfold run_tests. rewrite bind_Path_exists, Hfile.
  rewrite bool_decide_true by eauto. simpl.
  unfold mbind, M_bind, chdir, resolve. by rewrite Hfile.
Qed.

Lemma clean_file (w : World E) :
  fs w !! (cwd w ++ ["build"]) = Some File →
  clean w = (Raise (NotADirectoryError (cwd w ++ ["build"])), w).
Proof.
  intros Hfile. unfold clean. rewrite bind_Path_exists, Hfile.
  rewrite bool_decide_true by eauto. simpl.
  unfold mbind, M_bind, rmtree, resolve. by rewrite Hfile.
Qed.

Lemma run_tests_without_build (w : World E) :
  fs w !! (cwd w ++ ["build"]) = None →
  run_tests shell Signals w
  = (Ok false,
     emit [EPrint "❌ Build directory not found. Run 'python tasks.py build-debug' first."] w).
Proof.
  intros Hnone. unfold run_tests. rewrite bind_Path_exists, Hnone.
  by rewrite bool_decide_false by (by intros [? ?]).
Qed.

Lemma clean_without_build (w : World E) :
  fs w !! (cwd w ++ ["build"]) = None → clean w = (Ok true, w).
Proof.
  intros Hnone. unfold clean. rewrite bind_Path_exists, Hnone.
  by rewrite bool_decide_false by (by intros [? ?]).
Qed.

Lemma clean_with_build (w : World E) :
  fs w !! (cwd w ++ ["build"]) = Some Dir →
  clean w
  = (Ok true,
     mkWorld (filter (λ kv : path * node, ¬ (cwd w ++ ["build"]) `prefix_of` kv.1) (fs w))
             (cwd w) (env w) (trace w ++ [EPrint "🧹 Cleaned build directory"])).
Proof.
  intros Hdir. unfold clean. rewrite bind_Path_exists, Hdir.
  rewrite bool_decide_true by eauto. simpl.
  unfold mbind, M_bind, rmtree, resolve. by rewrite Hdir.
Qed.






(** X1: with a regular file called [build] in the working directory,
    [build_debug] and [build_release] raise [FileExistsError], and
    [run_tests] and [clean] raise [NotADirectoryError]; each does so before
    anything was printed, run or changed. *)
Theorem build_actions_raise_on_file (w : World E) :
  let dir := cwd w ++ ["build"] in
  fs w !! dir = Some File →
  build_debug shell Signals w = (Raise (FileExistsError dir), w)
  ∧ build_release shell Signals w = (Raise (FileExistsError dir), w)
  ∧ run_tests shell Signals w = (Raise (NotADirectoryError dir), w)
  ∧ clean w = (Raise (NotADirectoryError dir), w).
Proof.
  intros dir Hfile. split; [|split; [|split]].
  - by apply build_debug_file.
  - by apply build_release_file.
  - by apply run_tests_file.
  - by apply clean_file.
Qed.

End Outcomes.

(** ** The dispatcher, task by task *)

Lemma dispatch_returning {E : Type} (a : M E bool) (w : World E) :
  (returning a;; mret ()) w
  = match a w with
    | (Ok _, w') => (Ok (), w')
    | (Raise e, w') => (Raise e, w')
    end.
Proof. unfold returning, mbind, M_bind, mret, M_ret. by destruct (a w) as [[b | e] w']. Qed.

Lemma dispatch_returning_None {E : Type} (a : M E unit) (w : World E) :
  (returning_None a;; mret ()) w
  = match a w with
    | (Ok _, w') => (Ok (), w')
    | (Raise e, w') => (Raise e, w')
    end.
Proof.
  unfold returning_None, mbind, M_bind, mret, M_ret. by destruct (a w) as [[b | e] w'].
Qed.

Section Registry.

Context {E : Type} {codec : Codec}.
Variable shell : string → path → FileSystem → E → Exited * FileSystem * E.
Variable Signals : Z → option string.

Lemma main_dispatch prog name action (w : World E) :
  tasks shell Signals !! name = Some action →
  main shell Signals [prog; name] w = (action;; mret ()) w.
Proof.
  intros Hreg. unfold main, argv_get. simpl.
  unfold mbind at 1, M_bind at 1. by rewrite Hreg.
Qed.

Lemma main_two_arguments (argv : list string) :
  length argv = 2%nat → ∃ prog task, argv = [prog; task].
Proof. destruct argv as [| prog [| task [| ? ?]]]; try done. eauto. Qed.

Lemma main_other_count (argv : list string) (w : World E) :
  length argv ≠ 2%nat →
  main shell Signals argv w = (Ok (), emit (EPrint <$> help_lines) w).
Proof.
  intros Hlen. unfold main. apply Nat.eqb_neq in Hlen. rewrite Hlen. simpl.
  apply help_unfold.
Qed.

Lemma main_unknown prog task (w : World E) :
  tasks shell Signals !! task = None →
  main shell Signals [prog; task] w
  = (Ok (), emit (EPrint ("❌ Unknown task: " +:+ task) :: (EPrint <$> help_lines)) w).
Proof.
  intros Hnone. unfold main, argv_get. simpl.
  unfold mbind at 1, M_bind at 1. rewrite Hnone.
  by rewrite bind_print, help_unfold, emit_emit.
Qed.

(** To show something of every entry of the registry, show it of the ten
    entries of the dictionary literal. *)
Lemma tasks_cases (P : string → M E (option bool) → Prop) :
  P "setup-dev" (returning (setup_dev shell Signals)) →
  P "format" (returning (format_code shell Signals)) →
  P "lint" (returning (lint_code shell Signals)) →
  P "check" (returning (check_code shell Signals)) →
  P "build-debug" (returning (build_debug shell Signals)) →
  P "build-release" (returning (build_release shell Signals)) →
  P "test" (returning (run_tests shell Signals)) →
  P "clean" (returning clean) →
  P "update-hooks" (returning (update_hooks shell Signals)) →
  P "help" (returning_None help) →
  ∀ name action, tasks shell Signals !! name = Some action → P name action.
Proof.
  intros P1 P2 P3 P4 P5 P6 P7 P8 P9 P10 name action Hreg.
  destruct (decide (name ∈ task_names)) as [Hin | Hnot].
  - unfold task_names in Hin.
    repeat (apply elem_of_cons in Hin as [-> | Hin];
            [ unfold tasks in Hreg;
              repeat (rewrite lookup_insert_ne in Hreg by discriminate);
              rewrite lookup_insert_eq in Hreg; injection Hreg as <-; assumption |]).
    by apply elem_of_nil in Hin.
  - by rewrite (tasks_unknown _ _ _ Hnot) in Hreg.
Qed.

Lemma dispatch_world (a : M E bool) (w : World E) :
  ((returning a;; mret ()) w).2 = (a w).2.
Proof. rewrite dispatch_returning. by destruct (a w) as [[b | e] w']. Qed.






Lemma keeps_cwd_configure_build configure :
  keeps_cwd (ok ← run_command shell Signals configure "Configuring CMake";
             if negb ok then mret false
             else run_command shell Signals "cmake --build ." "Building project").
Proof.
  apply keeps_cwd_bind; [apply keeps_cwd_run_command|].
  intros [|]; simpl; [apply keeps_cwd_run_command | apply keeps_cwd_ret].
Qed.

Lemma build_debug_cwd (w : World E) :
  fs w !! (cwd w ++ ["build"]) = None ∨ fs w !! (cwd w ++ ["build"]) = Some Dir →
  cwd (build_debug shell Signals w).2 = cwd w ++ ["build"].
Proof.
  intros Hok. unfold build_debug. rewrite (enter_build _ _ Hok).
  by rewrite keeps_cwd_configure_build.
Qed.

Lemma build_release_cwd (w : World E) :
  fs w !! (cwd w ++ ["build"]) = None ∨ fs w !! (cwd w ++ ["build"]) = Some Dir →
  cwd (build_release shell Signals w).2 = cwd w ++ ["build"].
Proof.
  intros Hok. unfold build_release. rewrite (enter_build _ _ Hok).
  by rewrite keeps_cwd_configure_build.
Qed.

(** X11: [main] ends in the working directory it started in, or in its
    [build] subdirectory; the second happens only for the tasks
    [build-debug], [build-release] and [test].  This holds for every argument
    list and every state of the file system, also when the task raises. *)
Theorem main_working_directory argv (w : World E) :
  cwd (main shell Signals argv w).2 = cwd w
  ∨ (cwd (main shell Signals argv w).2 = cwd w ++ ["build"]
     ∧ ∃ prog task,
         argv = [prog; task] ∧ task ∈ ["build-debug"; "build-release"; "test"]).
Proof.
  destruct (decide (length argv = 2%nat)) as [Hlen | Hlen];
    [| left; by rewrite (main_other_count _ _ Hlen)].
  destruct (main_two_arguments _ Hlen) as (prog & task & ->). clear Hlen.
  destruct (tasks shell Signals !! task) as [action|] eqn:Hreg;
    [| left; by rewrite (main_unknown _ _ _ Hreg)].
  rewrite (main_dispatch _ _ _ _ Hreg).
  cut (cwd ((action;; mret ()) w).2 = cwd w
       ∨ cwd ((action;; mret ()) w).2 = cwd w ++ ["build"]
         ∧ task ∈ ["build-debug"; "build-release"; "test"]).
  { intros [Hsame | [Hbuild Hin]]; [by left | right; eauto]. }
  revert task action Hreg.
  apply (tasks_cases
           (λ name action,
              cwd ((action;; mret ()) w).2 = cwd w
              ∨ cwd ((action;; mret ()) w).2 = cwd w ++ ["build"]
                ∧ name ∈ ["build-debug"; "build-release"; "test"]));
    rewrite ?dispatch_world.
  - left. apply keeps_cwd_setup_dev.
  - left. apply run_command_cwd.
  - left. apply run_command_cwd.
  - left. apply run_command_cwd.
  - destruct (fs w !! (cwd w ++ ["build"])) as [[|]|] eqn:Hdir.
    + left. by rewrite (build_debug_file _ _ _ Hdir).
    + right. split; [by apply build_debug_cwd; right | set_solver].
    + right. split; [by apply build_debug_cwd; left | set_solver].
  - destruct (fs w !! (cwd w ++ ["build"])) as [[|]|] eqn:Hdir.
    + left. by rewrite (build_release_file _ _ _ Hdir).
    + right. split; [by apply build_release_cwd; right | set_solver].
    + right. split; [by apply build_release_cwd; left | set_solver].
  - destruct (fs w !! (cwd w ++ ["build"])) as [[|]|] eqn:Hdir.
    + left. by rewrite (run_tests_file _ _ _ Hdir).
    + right. split; [| set_solver].
      rewrite (run_tests_in_build _ _ _ Hdir). by rewrite run_command_cwd.
    + left. by rewrite (run_tests_without_build _ _ _ Hdir).
  - left. apply keeps_cwd_clean.
  - left. apply run_command_cwd.
  - left. rewrite dispatch_returning_None.
    pose proof (keeps_cwd_help (E:=E) w) as Hhelp.
    by destruct (help w) as [[u | e] w1].
Qed.

(** X3: the tasks that [help] lists are the tasks that [main] accepts: a
    name is a key of the [tasks] dictionary exactly when one of the lines
    [help] prints after its heading has that name as its first word. *)
Theorem help_lists_registered_tasks name (w : World E) :
  is_Some (tasks shell Signals !! name)
  ↔ Some name ∈ listed_name <$> tail (printed (since w (help w).2)).
Proof.
  assert (Hlisted : listed_name <$> tail (printed (since w (help w).2))
                    = Some <$> task_names).
  { rewrite help_unfold. cbn [snd]. rewrite since_emit. by vm_compute. }
  rewrite Hlisted. split.
  - intros Hreg. apply list_elem_of_fmap_2.
    destruct (decide (name ∈ task_names)) as [Hin | Hnot]; [done|].
    rewrite (tasks_unknown _ _ _ Hnot) in Hreg. by destruct Hreg.
  - intros (name' & [= <-] & Hin)%list_elem_of_fmap_1. by apply tasks_known.
Qed.

(** X4: asking for [help] by name and calling the script with no argument,
    or with too many, are the same run: same lines printed, same state left,
    same normal return. *)
Theorem main_help_is_fallback prog args (w : World E) :
  length args ≠ 1%nat →
  main shell Signals (prog :: args) w = main shell Signals [prog; "help"] w.
Proof.
  intros Hlen.
  rewrite main_other_count by (simpl; lia).
  destruct (tasks_entries shell Signals) as (_ & _ & _ & _ & _ & _ & _ & _ & _ & Hhelp).
  rewrite (main_dispatch _ _ _ _ Hhelp), dispatch_returning_None.
  by rewrite help_unfold.
Qed.

End Registry.

(** ** Child processes, and what the script itself does to the file system *)

Lemma spawns_spawned {E A : Type} (m : M E A) (w : World E) l :
  spawns m w l → spawned m w = l.
Proof.
  intros (evs & Htrace & <-). unfold spawned, since. rewrite Htrace.
  by rewrite drop_app_length.
Qed.

Lemma spawns_ret {E A : Type} (a : A) (w : World E) : spawns (mret a) w [].
Proof. exists []. split; [|done]. simpl. by rewrite app_nil_r. Qed.

Lemma spawns_print {E : Type} (s : string) (w : World E) : spawns (print s) w [].
Proof. by exists [EPrint s]. Qed.

Lemma spawns_bind {E A B : Type} (m : M E A) (k : A → M E B) (w : World E) a w1 l1 l2 :
  m w = (Ok a, w1) → spawns m w l1 → spawns (k a) w1 l2 → spawns (m ≫= k) w (l1 ++ l2).
Proof.
  intros Hm (evs1 & Ht1 & <-) (evs2 & Ht2 & <-).
  rewrite Hm in Ht1. simpl in Ht1.
  exists (evs1 ++ evs2). rewrite (bind_Ok _ _ _ _ _ Hm), Ht2, Ht1.
  split; [by rewrite app_assoc|]. unfold started. apply omap_app.
Qed.

Lemma spawns_Raise {E A : Type} (m : M E A) (w : World E) e :
  m w = (Raise e, w) → spawns m w [].
Proof. intros Hm. exists []. rewrite Hm. split; [|done]. simpl. by rewrite app_nil_r. Qed.

Lemma spawns_bind_Raise {E A B : Type} (m : M E A) (k : A → M E B) (w : World E) e w1 l :
  m w = (Raise e, w1) → spawns m w l → spawns (m ≫= k) w l.
Proof.
  intros Hm (evs & Ht & <-). exists evs. by rewrite (bind_Raise _ _ _ _ _ Hm), <- Ht, Hm.
Qed.

Section Effects.

Context {E : Type} {codec : Codec}.
Variable shell : string → path → FileSystem → E → Exited * FileSystem * E.
Variable Signals : Z → option string.

Lemma spawns_run_command cmd description (w : World E) :
  spawns (run_command shell Signals cmd description) w [(cmd, cwd w)].
Proof.
  unfold spawns. rewrite run_command_unfold.
  destruct (shell cmd (cwd w) (fs w) (env w)) as [[x f] e].
  destruct (decode (out_bytes x)) as [out|]; [| by eexists].
  destruct (decode (err_bytes x)) as [err|]; [| by eexists].
  simpl. eexists. split; [done|].
  destruct (status x =? 0), (truthy out), (truthy err); done.
Qed.

(** One [run_command] after another, in one directory. *)
Lemma spawns_two_steps (w : World E) cmd1 desc1 cmd2 desc2 (rest : M E bool) :
  (∀ w1, spawns rest w1 []) →
  let m := ok ← run_command shell Signals cmd1 desc1;
           if negb ok then mret false else
           ok ← run_command shell Signals cmd2 desc2;
           if negb ok then mret false else rest in
  spawns m w [(cmd1, cwd w)] ∨ spawns m w [(cmd1, cwd w); (cmd2, cwd w)].
Proof.
  intros Hrest m. unfold m.
  pose proof (run_command_cwd shell Signals cmd1 desc1 w) as Hcwd.
  destruct (run_command shell Signals cmd1 desc1 w) as [[ok1 | exc1] w1] eqn:H1;
    simpl in Hcwd.
  - destruct ok1.
    + right.
      apply (spawns_bind _ _ _ _ _ [(cmd1, cwd w)] [(cmd2, cwd w)] H1);
        [apply spawns_run_command|]. simpl.
      rewrite <- Hcwd.
      destruct (run_command shell Signals cmd2 desc2 w1) as [[ok2 | exc2] w2] eqn:H2.
      * apply (spawns_bind _ _ _ _ _ [(cmd2, cwd w1)] [] H2);
          [apply spawns_run_command|].
        destruct ok2; simpl; [apply Hrest | apply spawns_ret].
      * apply (spawns_bind_Raise _ _ _ _ _ _ H2).
        apply spawns_run_command.
    + left.
      apply (spawns_bind _ _ _ _ _ [(cmd1, cwd w)] [] H1);
        [apply spawns_run_command|].
      apply spawns_ret.
  - left. apply (spawns_bind_Raise _ _ _ _ _ _ H1).
    apply spawns_run_command.
Qed.

Lemma spawns_configure_build configure (w : World E) :
  let m := ok ← run_command shell Signals configure "Configuring CMake";
           if negb ok then mret false
           else run_command shell Signals "cmake --build ." "Building project" in
  spawns m w [(configure, cwd w)]
  ∨ spawns m w [(configure, cwd w); ("cmake --build .", cwd w)].
Proof.
  intros m. unfold m.
  pose proof (run_command_cwd shell Signals configure "Configuring CMake" w) as Hcwd.
  destruct (run_command shell Signals configure "Configuring CMake" w)
    as [[ok1 | exc1] w1] eqn:H1; simpl in Hcwd.
  - destruct ok1.
    + right.
      apply (spawns_bind _ _ _ _ _ [(configure, cwd w)] [("cmake --build .", cwd w)] H1);
        [apply spawns_run_command|]. simpl.
      rewrite <- Hcwd. apply spawns_run_command.
    + left.
      apply (spawns_bind _ _ _ _ _ [(configure, cwd w)] [] H1);
        [apply spawns_run_command|].
      apply spawns_ret.
  - left. apply (spawns_bind_Raise _ _ _ _ _ _ H1).
    apply spawns_run_command.
Qed.

Lemma spawned_setup_dev (w : World E) :
  spawned (setup_dev shell Signals) w
  = [("pip install -r requirements.txt", cwd w)]
  ∨ spawned (setup_dev shell Signals) w
    = [("pip install -r requirements.txt", cwd w); ("pre-commit install", cwd w)].
Proof.
  unfold setup_dev.
  set (banner := "🚀 Setting up DeclarativeUI development environment...").
  match goal with
  | |- context [print banner ≫= λ _, ?m] =>
      destruct (spawns_two_steps (emit [EPrint banner] w)
                  "pip install -r requirements.txt" "Installing Python dependencies"
                  "pre-commit install" "Installing pre-commit hooks"
                  (print "✅ Development environment setup complete!";;
                   print (LF +:+ "📋 Next steps:");;
                   print "   1. mkdir build && cd build";;
                   print "   2. cmake .. -DCMAKE_BUILD_TYPE=Debug -DBUILD_EXAMPLES=ON -DBUILD_TESTS=ON";;
                   print "   3. cmake --build .";;
                   print "   4. ctest --output-on-failure";;
                   mret true)) as [Hone | Htwo]
  end.
  - intros w1. exists [ EPrint "✅ Development environment setup complete!";
                        EPrint (LF +:+ "📋 Next steps:");
                        EPrint "   1. mkdir build && cd build";
                        EPrint "   2. cmake .. -DCMAKE_BUILD_TYPE=Debug -DBUILD_EXAMPLES=ON -DBUILD_TESTS=ON";
                        EPrint "   3. cmake --build .";
                        EPrint "   4. ctest --output-on-failure" ].
    split; [|done]. step_prints. done.
  - left. apply spawns_spawned.
    apply (spawns_bind _ _ _ _ _ [] _ eq_refl (spawns_print banner w) Hone).
  - right. apply spawns_spawned.
    apply (spawns_bind _ _ _ _ _ [] _ eq_refl (spawns_print banner w) Htwo).
Qed.

Lemma spawned_run_command cmd description (w : World E) :
  spawned (run_command shell Signals cmd description) w = [(cmd, cwd w)].
Proof. apply spawns_spawned, spawns_run_command. Qed.

(** X5: which child processes an action starts, in which order and in which
    directory.  [setup_dev] starts pip and then, at most, the hook install,
    both where the script was started; [format_code], [lint_code],
    [check_code] and [update_hooks] start their one command there; [help] and
    [clean] start none.  The builds start the configure step and then, at
    most, the build step, both inside the build directory, and [run_tests]
    starts the test runner there if the directory exists and nothing
    otherwise; with a regular file called [build] none of the three starts
    anything. *)
Theorem processes_started (w : World E) :
  let here := cwd w in
  let dir := cwd w ++ ["build"] in
  let configure ty :=
    "cmake .. -DCMAKE_BUILD_TYPE=" +:+ ty +:+ " -DBUILD_EXAMPLES=ON -DBUILD_TESTS=ON" in
  (spawned (setup_dev shell Signals) w = [("pip install -r requirements.txt", here)]
   ∨ spawned (setup_dev shell Signals) w
     = [("pip install -r requirements.txt", here); ("pre-commit install", here)])
  ∧ spawned (format_code shell Signals) w = [("pre-commit run --all-files", here)]
  ∧ spawned (lint_code shell Signals) w = [("pre-commit run cppcheck --all-files", here)]
  ∧ spawned (check_code shell Signals) w = [("pre-commit run --all-files", here)]
  ∧ spawned (update_hooks shell Signals) w = [("pre-commit autoupdate", here)]
  ∧ spawned help w = []
  ∧ spawned clean w = []
  ∧ let builds :=
      (spawned (build_debug shell Signals) w = [(configure "Debug", dir)]
       ∨ spawned (build_debug shell Signals) w
         = [(configure "Debug", dir); ("cmake --build .", dir)])
      ∧ (spawned (build_release shell Signals) w = [(configure "Release", dir)]
         ∨ spawned (build_release shell Signals) w
           = [(configure "Release", dir); ("cmake --build .", dir)]) in
    match fs w !! dir with
    | Some File =>
        spawned (build_debug shell Signals) w = []
        ∧ spawned (build_release shell Signals) w = []
        ∧ spawned (run_tests shell Signals) w = []
    | Some Dir =>
        builds
        ∧ spawned (run_tests shell Signals) w = [("ctest --output-on-failure", dir)]
    | None =>
        builds ∧ spawned (run_tests shell Signals) w = []
    end.
Proof.
  intros here dir configure.
  split; [apply spawned_setup_dev|].
  do 4 (split; [apply spawned_run_command|]).
  split. { unfold spawned. rewrite help_unfold. cbn [snd]. by rewrite since_emit. }
  split.
  { apply spawns_spawned.
    destruct (fs w !! dir) as [[|]|] eqn:Hdir.
    - eapply spawns_Raise, (clean_file _ Hdir).
    - exists [EPrint "🧹 Cleaned build directory"]. by rewrite (clean_with_build _ Hdir).
    - exists []. rewrite (clean_without_build _ Hdir). by rewrite app_nil_r. }
  cbv zeta. destruct (fs w !! dir) as [[|]|] eqn:Hdir.
  - repeat split; apply spawns_spawned; eapply spawns_Raise.
    + apply (build_debug_file _ _ _ Hdir).
    + apply (build_release_file _ _ _ Hdir).
    + apply (run_tests_file _ _ _ Hdir).
  - split; [split|].
    + unfold spawned, build_debug. rewrite (enter_build _ _ (or_intror Hdir)).
      destruct (spawns_configure_build (configure "Debug")
                  (mkWorld (<[dir := Dir]> (fs w)) dir (env w) (trace w)))
        as [H%spawns_spawned | H%spawns_spawned]; [left | right]; exact H.
    + unfold spawned, build_release. rewrite (enter_build _ _ (or_intror Hdir)).
      destruct (spawns_configure_build (configure "Release")
                  (mkWorld (<[dir := Dir]> (fs w)) dir (env w) (trace w)))
        as [H%spawns_spawned | H%spawns_spawned]; [left | right]; exact H.
    + unfold spawned. rewrite (run_tests_in_build _ _ _ Hdir).
      apply (spawned_run_command _ _ (set_cwd dir w)).
  - split; [split|].
    + unfold spawned, build_debug. rewrite (enter_build _ _ (or_introl Hdir)).
      destruct (spawns_configure_build (configure "Debug")
                  (mkWorld (<[dir := Dir]> (fs w)) dir (env w) (trace w)))
        as [H%spawns_spawned | H%spawns_spawned]; [left | right]; exact H.
    + unfold spawned, build_release. rewrite (enter_build _ _ (or_introl Hdir)).
      destruct (spawns_configure_build (configure "Release")
                  (mkWorld (<[dir := Dir]> (fs w)) dir (env w) (trace w)))
        as [H%spawns_spawned | H%spawns_spawned]; [left | right]; exact H.
    + unfold spawned. rewrite (run_tests_without_build _ _ _ Hdir).
      cbn [snd]. by rewrite since_emit.
Qed.









(** X6: [clean] touches nothing outside the build directory: in every
    state, every path that is not [build] or below it is after [clean] what
    it was before, and so is the environment of the tools. *)
Theorem clean_touches_only_build (w : World E) (p : path) :
  ¬ (cwd w ++ ["build"]) `prefix_of` p →
  fs (clean w).2 !! p = fs w !! p ∧ env (clean w).2 = env w.
Proof.
  intros Hout.
  destruct (fs w !! (cwd w ++ ["build"])) as [[|]|] eqn:Hdir.
  - by rewrite (clean_file _ Hdir).
  - rewrite (clean_with_build _ Hdir). simpl.
    by rewrite rmtree_lookup, decide_False.
  - by rewrite (clean_without_build _ Hdir).
Qed.

(** X8: [clean] is idempotent: running it a second time in the same
    process changes nothing more and gives the same result as running it
    once, in every state. *)
Theorem clean_idempotent (w : World E) :
  (clean;; clean) w = clean w.
Proof.
  destruct (fs w !! (cwd w ++ ["build"])) as [[|]|] eqn:Hdir.
  - unfold mbind, M_bind. by rewrite (clean_file _ Hdir).
  - rewrite (bind_Ok _ _ _ _ _ (clean_with_build _ Hdir)), (clean_with_build _ Hdir).
    apply clean_without_build. simpl.
    by rewrite rmtree_lookup, decide_True.
  - rewrite (bind_Ok _ _ _ _ _ (clean_without_build _ Hdir)).
    reflexivity.
Qed.


(** X10: the working directory that a build leaves behind hides the build
    directory from the next action of the same process: after [build_debug]
    or [build_release], [run_tests] looks for [build] inside [build], and
    when the tools have put nothing there it prints the guidance line and
    returns [False] without starting the test runner. *)
Theorem run_tests_after_build (release : bool) (w : World E) :
  let build := if release then build_release shell Signals
               else build_debug shell Signals in
  fs w !! (cwd w ++ ["build"]) = None ∨ fs w !! (cwd w ++ ["build"]) = Some Dir →
  fs (build w).2 !! (cwd w ++ ["build"; "build"]) = None →
  run_tests shell Signals (build w).2
  = (Ok false,
     emit [EPrint "❌ Build directory not found. Run 'python tasks.py build-debug' first."]
          (build w).2).
Proof.
  intros build Hok Hnone.
  apply run_tests_without_build.
  assert (Hcwd : cwd (build w).2 = cwd w ++ ["build"]).
  { unfold build. destruct release;
      [by apply build_release_cwd | by apply build_debug_cwd]. }
  rewrite Hcwd, <- app_assoc. exact Hnone.
Qed.

End Effects.

(** ** The exit status and the tools *)


(** ** The script at work

    Runs of the script on the concrete environments, in an ASCII locale;
    each applies one of the theorems above where its premises hold, or shows
    a state in which a sentence of the specification does not hold. *)

#[local] Existing Instance ascii_codec.

Lemma run_command_failure_witness :
  (scripted ["false"] "false" [] ∅ () = (mkExited 1 "boom" "bad", ∅, ())
   ∧ decode "boom" = Some "boom" ∧ decode "bad" = Some "bad")
  ∧ run_command (scripted ["false"]) posix_signals "false" "Failing" fresh
    = (Ok false,
       mkWorld ∅ [] ()
         [ EPrint "🔧 Failing..."; ERun "false" [];
           EPrint "❌ Error: Command 'false' returned non-zero exit status 1.";
           EPrint "Output: boom"; EPrint "Error: bad" ]).
Proof.
  split; [by repeat split|].
  apply (run_command_failure (scripted ["false"]) posix_signals "false" "Failing"
           fresh (mkExited 1 "boom" "bad") ∅ () "boom" "bad").
  - reflexivity.
  - reflexivity.
  - reflexivity.
  - simpl. lia.
Defined.

(** The linter exits with status 1 after writing a byte that is not text:
    [run_command] does not return [False], [UnicodeDecodeError] leaves it. *)
Lemma run_command_failure_counterexample :
  let cmd := "pre-commit run cppcheck --all-files" in
  status (garbling 1 cmd [] ∅ ()).1.1 ≠ 0
  ∧ run_command (garbling 1) posix_signals cmd "Running C++ linting" fresh
    = (Raise (UnicodeDecodeError xFF),
       mkWorld ∅ [] () [EPrint "🔧 Running C++ linting..."; ERun cmd []])
  ∧ (run_command (garbling 1) posix_signals cmd "Running C++ linting" fresh).1
    ≠ Ok false.
Proof. repeat split; [by vm_compute | by vm_compute]. Qed.

Lemma run_command_success_witness :
  (scripted [] "true" [] ∅ () = (mkExited 0 "OK" "", ∅, ())
   ∧ decode "OK" = Some "OK" ∧ decode "" = Some "")
  ∧ run_command (scripted []) posix_signals "true" "Succeeding" fresh
    = (Ok true,
       mkWorld ∅ [] () [EPrint "🔧 Succeeding..."; ERun "true" []; EPrint "OK"]).
Proof.
  split; [by repeat split|].
  apply (run_command_success (scripted []) posix_signals "true" "Succeeding"
           fresh (mkExited 0 "OK" "") ∅ () "OK" "").
  - reflexivity.
  - reflexivity.
  - reflexivity.
  - reflexivity.
Defined.

(** The formatter exits with status 0 after writing a byte that is not
    text: [run_command] does not return [True], and prints no output. *)
Lemma run_command_success_counterexample :
  let cmd := "pre-commit run --all-files" in
  status (garbling 0 cmd [] ∅ ()).1.1 = 0
  ∧ run_command (garbling 0) posix_signals cmd "Formatting all code" fresh
    = (Raise (UnicodeDecodeError xFF),
       mkWorld ∅ [] () [EPrint "🔧 Formatting all code..."; ERun cmd []])
  ∧ (run_command (garbling 0) posix_signals cmd "Formatting all code" fresh).1
    ≠ Ok true.
Proof. repeat split; by vm_compute. Qed.


(** The linter fails, [lint_code] says so, and the exit status is 0 all the
    same. *)
Lemma main_discards_result_witness :
  let sh := scripted ["pre-commit run cppcheck --all-files"] in
  tasks sh posix_signals !! "lint" = Some (returning (lint_code sh posix_signals))
  ∧ (returning (lint_code sh posix_signals) fresh).1 = Ok (Some false)
  ∧ exit_status sh posix_signals ["tasks.py"; "lint"] fresh = 0.
Proof.
  intros sh.
  assert (Hreg : tasks sh posix_signals !! "lint"
                 = Some (returning (lint_code sh posix_signals))).
  { exact (proj1 (proj2 (proj2 (tasks_entries sh posix_signals)))). }
  split; [exact Hreg|]. split; [reflexivity|].
  destruct (main_discards_result sh posix_signals "tasks.py" "lint" _ fresh Hreg)
    as [_ Hexit].
  eapply Hexit. reflexivity.
Defined.

Lemma build_steps_witness :
  fs fresh !! (cwd fresh ++ ["build"]) = None
  ∧ build_release (scripted []) posix_signals fresh
    = run_command (scripted []) posix_signals "cmake --build ." "Building project"
        (run_command (scripted []) posix_signals
           "cmake .. -DCMAKE_BUILD_TYPE=Release -DBUILD_EXAMPLES=ON -DBUILD_TESTS=ON"
           "Configuring CMake"
           (mkWorld (<[["build"] := Dir]> ∅) ["build"] () [])).2.
Proof.
  assert (Hfree : fs fresh !! (cwd fresh ++ ["build"]) = None) by reflexivity.
  split; [exact Hfree|].
  destruct (build_steps (scripted []) posix_signals true fresh (or_introl Hfree))
    as (_ & _ & Hsteps).
  exact Hsteps.
Defined.

(** A regular file called [build]: the build directory is not made, the
    working directory is not changed and the configure step is not run. *)
Lemma build_steps_counterexample :
  let r := build_debug (scripted []) posix_signals blocked in
  r.1 = Raise (FileExistsError ["build"])
  ∧ fs r.2 !! (cwd blocked ++ ["build"]) ≠ Some Dir
  ∧ cwd r.2 ≠ cwd blocked ++ ["build"]
  ∧ commands (since blocked r.2) = [].
Proof. repeat split; by vm_compute. Qed.

Lemma run_tests_needs_build_witness :
  (fs fresh !! (cwd fresh ++ ["build"]) = None
   ∧ fs built !! (cwd built ++ ["build"]) = Some Dir)
  ∧ run_tests (scripted []) posix_signals fresh
    = (Ok false,
       emit [EPrint "❌ Build directory not found. Run 'python tasks.py build-debug' first."]
            fresh)
  ∧ run_tests (scripted []) posix_signals built
    = run_command (scripted []) posix_signals "ctest --output-on-failure" "Running tests"
        (set_cwd ["build"] built).
Proof.
  assert (Hnone : fs fresh !! (cwd fresh ++ ["build"]) = None) by reflexivity.
  assert (Hdir : fs built !! (cwd built ++ ["build"]) = Some Dir) by reflexivity.
  split; [done|]. split.
  - apply (run_tests_needs_build (scripted []) posix_signals fresh). exact Hnone.
  - apply (run_tests_needs_build (scripted []) posix_signals built). exact Hdir.
Defined.

(** A regular file called [build]: there is no build directory, and
    [run_tests] neither prints the guidance line nor returns [False]. *)
Lemma run_tests_needs_build_counterexample :
  let r := run_tests (scripted []) posix_signals blocked in
  fs blocked !! (cwd blocked ++ ["build"]) ≠ Some Dir
  ∧ r.1 = Raise (NotADirectoryError ["build"])
  ∧ r.1 ≠ Ok false
  ∧ printed (since blocked r.2) = [].
Proof. repeat split; by vm_compute. Qed.



Lemma working_directory_witness :
  fs built !! (cwd built ++ ["build"]) = Some Dir
  ∧ cwd (build_debug (scripted []) posix_signals built).2 = ["build"]
  ∧ cwd (build_release (scripted []) posix_signals built).2 = ["build"]
  ∧ cwd (run_tests (scripted []) posix_signals built).2 = ["build"].
Proof.
  assert (Hdir : fs built !! (cwd built ++ ["build"]) = Some Dir) by reflexivity.
  split; [exact Hdir|].
  destruct (working_directory (scripted []) posix_signals built) as (Hbuild & Htest & _).
  destruct (Hbuild (or_intror Hdir)) as [Hdebug Hrelease].
  split; [exact Hdebug|]. split; [exact Hrelease | exact (Htest Hdir)].
Defined.

(** A regular file called [build]: the builds leave the working directory
    where it was. *)
Lemma working_directory_counterexample :
  cwd (build_debug (scripted []) posix_signals blocked).2 = cwd blocked
  ∧ cwd (build_release (scripted []) posix_signals blocked).2 = cwd blocked
  ∧ cwd blocked ≠ cwd blocked ++ ["build"].
Proof. repeat split; by vm_compute. Qed.

(** *** [setup_dev] on its ways out *)

(** pip succeeds but writes a byte that is not text: the exception leaves
    [setup_dev] and the hooks are not installed. *)
Example setup_dev_pip_garbles :
  setup_dev (garbling 0) posix_signals fresh
  = (Raise (UnicodeDecodeError xFF),
     mkWorld ∅ [] ()
       [ EPrint "🚀 Setting up DeclarativeUI development environment...";
         EPrint "🔧 Installing Python dependencies...";
         ERun "pip install -r requirements.txt" [] ]).
Proof. reflexivity. Qed.

Example setup_dev_pip_fails :
  setup_dev (scripted ["pip install -r requirements.txt"]) posix_signals fresh
  = (Ok false,
     mkWorld ∅ [] ()
       [ EPrint "🚀 Setting up DeclarativeUI development environment...";
         EPrint "🔧 Installing Python dependencies...";
         ERun "pip install -r requirements.txt" [];
         EPrint "❌ Error: Command 'pip install -r requirements.txt' returned non-zero exit status 1.";
         EPrint "Output: boom"; EPrint "Error: bad" ]).
Proof. reflexivity. Qed.

Example setup_dev_hook_fails :
  let r := setup_dev (scripted ["pre-commit install"]) posix_signals fresh in
  r.1 = Ok false
  ∧ commands (trace r.2) = ["pip install -r requirements.txt"; "pre-commit install"].
Proof. split; reflexivity. Qed.

Example setup_dev_both_succeed :
  let r := setup_dev silent posix_signals fresh in
  r.1 = Ok true
  ∧ commands (trace r.2) = ["pip install -r requirements.txt"; "pre-commit install"]
  ∧ printed (trace r.2)
    = [ "🚀 Setting up DeclarativeUI development environment...";
        "🔧 Installing Python dependencies...";
        "🔧 Installing pre-commit hooks...";
        "✅ Development environment setup complete!";
        LF +:+ "📋 Next steps:";
        "   1. mkdir build && cd build";
        "   2. cmake .. -DCMAKE_BUILD_TYPE=Debug -DBUILD_EXAMPLES=ON -DBUILD_TESTS=ON";
        "   3. cmake --build .";
        "   4. ctest --output-on-failure" ].
Proof. repeat split; reflexivity. Qed.

(** *** A child killed by a signal *)

Example str_killed :
  str posix_signals (CalledProcessError "ctest --output-on-failure" (-9) "" "")
  = "Command 'ctest --output-on-failure' died with <Signals.SIGKILL: 9>.".
Proof. reflexivity. Qed.

(** *** A regular file named [build]

    The theorems on the build directory ask for it to be a directory or not
    to be there.  With a regular file of that name the library calls raise,
    nothing in [tasks.py] catches that, and the interpreter exits with 1. *)

Example build_debug_blocked :
  build_debug (scripted []) posix_signals blocked
  = (Raise (FileExistsError ["build"]), blocked)
  ∧ exit_status (scripted []) posix_signals ["tasks.py"; "build-debug"] blocked = 1.
Proof. split; reflexivity. Qed.

Example run_tests_blocked :
  run_tests (scripted []) posix_signals blocked
  = (Raise (NotADirectoryError ["build"]), blocked).
Proof. reflexivity. Qed.

Example clean_blocked :
  clean blocked = (Raise (NotADirectoryError ["build"]), blocked).
Proof. reflexivity. Qed.

(** ** More runs of the script *)



Lemma build_actions_raise_on_file_witness :
  fs blocked !! (cwd blocked ++ ["build"]) = Some File
  ∧ build_debug (scripted []) posix_signals blocked
    = (Raise (FileExistsError ["build"]), blocked)
  ∧ clean blocked = (Raise (NotADirectoryError ["build"]), blocked).
Proof.
  assert (Hfile : fs blocked !! (cwd blocked ++ ["build"]) = Some File) by reflexivity.
  split; [exact Hfile|].
  destruct (build_actions_raise_on_file (scripted []) posix_signals blocked Hfile)
    as (Hdebug & _ & _ & Hclean).
  split; [exact Hdebug | exact Hclean].
Defined.



Lemma main_help_is_fallback_witness :
  length ["one"; "two"] ≠ 1%nat
  ∧ main (scripted []) posix_signals ["tasks.py"; "one"; "two"] fresh
    = main (scripted []) posix_signals ["tasks.py"; "help"] fresh.
Proof.
  assert (Hlen : length ["one"; "two"] ≠ 1%nat) by (simpl; lia).
  split; [exact Hlen|].
  exact (main_help_is_fallback (scripted []) posix_signals "tasks.py" ["one"; "two"]
           fresh Hlen).
Defined.

Lemma clean_touches_only_build_witness :
  ¬ (cwd built ++ ["build"]) `prefix_of` ["src"]
  ∧ fs (clean built).2 !! ["src"] = Some Dir.
Proof.
  assert (Hout : ¬ (cwd built ++ ["build"]) `prefix_of` ["src"]).
  { apply (bool_decide_unpack _). vm_compute. exact I. }
  split; [exact Hout|].
  destruct (clean_touches_only_build built ["src"] Hout) as [Hsame _].
  rewrite Hsame. reflexivity.
Defined.



Lemma run_tests_after_build_witness :
  (fs fresh !! (cwd fresh ++ ["build"]) = None
   ∧ fs (build_debug (scripted []) posix_signals fresh).2 !! (cwd fresh ++ ["build"; "build"])
     = None)
  ∧ (build_debug (scripted []) posix_signals fresh).1 = Ok true
  ∧ (run_tests (scripted []) posix_signals
       (build_debug (scripted []) posix_signals fresh).2).1 = Ok false.
Proof.
  assert (Hnone : fs fresh !! (cwd fresh ++ ["build"]) = None) by reflexivity.
  assert (Hinner : fs (build_debug (scripted []) posix_signals fresh).2
                     !! (cwd fresh ++ ["build"; "build"]) = None) by reflexivity.
  split; [done|]. split; [reflexivity|].
  rewrite (run_tests_after_build (scripted []) posix_signals false fresh
             (or_introl Hnone) Hinner).
  reflexivity.
Defined.

